(** * Batch bolt generator: sampler, checkpoint, thread retry and batch driver

    Shallow embedding of [test.py] (the Fusion 360 add-in script).  The host
    CAD engine, the file system and Python's [random] module are external to
    the script; they appear here as explicit inputs (oracles) of the
    functions that call them.

    Numbers.  Python [int] is [Z].  Python [float] values that the script
    reads from the CSV file or writes as literals are modelled by the
    rationals their decimal notation denotes ([Q]); comparisons between them
    are the exact ones. *)

From Stdlib Require Import ZArith QArith Qabs Ascii String Lia.
From stdpp Require Import base gmap sets list strings pretty.

#[local] Set Warnings "-clear-no-such-hyp".

Open Scope string_scope.
Open Scope Z_scope.

(** ** Python numbers and their text form *)

Module PyNum.

(** A value of the list [std_sizes] is an [int] literal ([8]) or a [float]
    literal ([1.6]); the f-strings print the two differently. *)
Inductive pynum :=
  | PyInt (n : Z)
  | PyFloat (q : Q).

Definition num_val (x : pynum) : Q :=
  match x with
  | PyInt n => inject_Z n
  | PyFloat q => q
  end.

(** [==] and [<] on numbers compare values, whatever their type. *)
Definition num_eqb (x y : pynum) : bool := Qeq_bool (num_val x) (num_val y).
Definition num_ltb (x y : pynum) : bool :=
  negb (Qle_bool (num_val y) (num_val x)).

Definition digit_char (d : Z) : ascii :=
  ascii_of_nat (48 + Z.to_nat d).

(** Digits of [num/den] (a fraction in [0,1)) after the decimal point. *)
Fixpoint frac_digits (fuel : nat) (num den : Z) : string :=
  match fuel with
  | O => EmptyString
  | S fuel' =>
      if num =? 0 then EmptyString
      else String (digit_char (num * 10 / den))
                  (frac_digits fuel' ((num * 10) mod den) den)
  end.

(** [repr] of a float with a short finite decimal expansion, as it is for
    every float literal of the script: integer part, a point, and the
    fractional digits (["0"] when there are none). *)
Definition float_repr (q : Q) : string :=
  let n := Z.abs (Qnum q) in
  let d := Z.pos (Qden q) in
  let frac := frac_digits 17 (n mod d) d in
  (if Qnum q <? 0 then "-" else EmptyString) +:+
  pretty (n / d) +:+ "." +:+
  (if String.eqb frac EmptyString then "0" else frac).

(** What an f-string puts for [{x}]. *)
Definition num_str (x : pynum) : string :=
  match x with
  | PyInt n => pretty n
  | PyFloat q => float_repr q
  end.

End PyNum.
Export PyNum.

(** ** The standard thread table of [Bolt.__init__] *)

Module ThreadTable.

Definition std_sizes : list pynum :=
  [ PyInt 1; PyFloat (16#10); PyInt 2; PyFloat (25#10); PyInt 3; PyInt 4;
    PyInt 5; PyInt 6; PyInt 8; PyInt 10; PyInt 12; PyInt 14; PyInt 16;
    PyInt 18; PyInt 20; PyInt 22; PyInt 24; PyInt 27; PyInt 30; PyInt 33;
    PyInt 36; PyInt 39; PyInt 42; PyInt 45; PyInt 48 ].

(** The dict literal [pitch_map], in the order it is written. *)
Definition pitch_map : list (pynum * Q) :=
  [ (PyInt 1, 25#100); (PyFloat (16#10), 35#100); (PyInt 2, 4#10);
    (PyFloat (25#10), 45#100); (PyInt 3, 5#10); (PyInt 4, 7#10);
    (PyInt 5, 8#10); (PyInt 6, 10#10);
    (PyInt 8, 125#100); (PyInt 10, 15#10); (PyInt 12, 175#100);
    (PyInt 14, 20#10); (PyInt 16, 20#10); (PyInt 18, 25#10);
    (PyInt 20, 25#10);
    (PyInt 22, 25#10); (PyInt 24, 30#10); (PyInt 27, 30#10);
    (PyInt 30, 35#10); (PyInt 33, 35#10); (PyInt 36, 40#10);
    (PyInt 39, 40#10); (PyInt 42, 45#10); (PyInt 45, 45#10);
    (PyInt 48, 50#10) ].

(** [d[k]] as an option: the value of the first key equal to [k]. *)
Fixpoint dict_lookup (m : list (pynum * Q)) (k : pynum) : option Q :=
  match m with
  | [] => None
  | (k', v) :: m' => if num_eqb k' k then Some v else dict_lookup m' k
  end.

(** [d.get(k, default)]. *)
Definition dict_get (m : list (pynum * Q)) (k : pynum) (default : Q) : Q :=
  match dict_lookup m k with
  | Some v => v
  | None => default
  end.

(** [min(l, key=key)] after its first element [best]: a later element
    replaces the current one only when its key is strictly smaller. *)
Fixpoint min_from (key : pynum -> Q) (best : pynum) (l : list pynum) : pynum :=
  match l with
  | [] => best
  | x :: l' =>
      if negb (Qle_bool (key best) (key x))
      then min_from key x l'
      else min_from key best l'
  end.

(** [min(l, key=key)]; [None] stands for the [ValueError] on an empty list. *)
Definition py_min (key : pynum -> Q) (l : list pynum) : option pynum :=
  match l with
  | [] => None
  | x :: l' => Some (min_from key x l')
  end.

(** [max(l)] after its first element: a later element replaces the
    current one only when it is strictly greater. *)
Fixpoint max_from (best : pynum) (l : list pynum) : pynum :=
  match l with
  | [] => best
  | x :: l' =>
      if num_ltb best x then max_from x l' else max_from best l'
  end.

(** [abs(x - dia)], the key of the search in [Bolt.__init__]. *)
Definition dist (dia : Q) (x : pynum) : Q := Qabs (num_val x - dia).

(** [min(self.std_sizes, key=lambda x: abs(x - dia))] *)
Definition nearest_std_size (dia : Q) : pynum :=
  match py_min (dist dia) std_sizes with
  | Some x => x
  | None => PyInt 0
  end.

(** [self.pitch_map.get(size, 1.5)] *)
Definition coarse_pitch (size : pynum) : Q :=
  dict_get pitch_map size (15#10).

(** [f'M{size}x{pitch}'] *)
Definition designation (size : pynum) (pitch : Q) : string :=
  "M" +:+ num_str size +:+ "x" +:+ float_repr pitch.

(** [f'M{size}'] *)
Definition bare_designation (size : pynum) : string :=
  "M" +:+ num_str size.

End ThreadTable.
Export ThreadTable.

(** ** Text: [str.strip], [_parse_csv_line] and [float] *)

Module Text.

(** The ASCII characters [str.strip()] removes: tab, line feed, vertical
    tab, form feed, carriage return, the four separators 28..31 and space. *)
Definition is_py_space (c : ascii) : bool :=
  let n := nat_of_ascii c in
  ((9 <=? n) && (n <=? 13) || (28 <=? n) && (n <=? 32))%nat.

Fixpoint lstrip (cs : list ascii) : list ascii :=
  match cs with
  | [] => []
  | c :: cs' => if is_py_space c then lstrip cs' else cs
  end.

Definition strip_chars (cs : list ascii) : list ascii :=
  rev (lstrip (rev (lstrip cs))).

Definition strip (s : string) : string :=
  string_of_list_ascii (strip_chars (list_ascii_of_string s)).

Definition quote_char : ascii := ascii_of_nat 34.
Definition comma_char : ascii := ascii_of_nat 44.

(** The loop [for char in line] of [_parse_csv_line]; [current] is kept
    reversed, [result] in order. *)
Fixpoint parse_chars (cs : list ascii) (in_quotes : bool)
    (current : list ascii) (result : list string) : list ascii * list string :=
  match cs with
  | [] => (current, result)
  | char :: cs' =>
      if Ascii.eqb char quote_char then
        parse_chars cs' (negb in_quotes) current result
      else if Ascii.eqb char comma_char && negb in_quotes then
        parse_chars cs' in_quotes []
          (result ++ [strip (string_of_list_ascii (rev current))])
      else
        parse_chars cs' in_quotes (char :: current) result
  end.

Definition _parse_csv_line (line : string) : list string :=
  let '(current, result) :=
    parse_chars (list_ascii_of_string line) false [] [] in
  match current with
  | [] => result
  | _ => result ++ [strip (string_of_list_ascii (rev current))]
  end.

Definition digit_of (c : ascii) : option Z :=
  let n := nat_of_ascii c in
  if ((48 <=? n) && (n <=? 57))%nat then Some (Z.of_nat n - 48) else None.

(** Reads a run of decimal digits: their value, how many there were, and
    what follows. *)
Fixpoint read_digits (cs : list ascii) (acc : Z) (n : nat)
    : Z * nat * list ascii :=
  match cs with
  | [] => (acc, n, [])
  | c :: cs' =>
      match digit_of c with
      | Some d => read_digits cs' (acc * 10 + d) (S n)
      | None => (acc, n, cs)
      end
  end.

(** [float(s)] on plain decimal notation: optional surrounding white space,
    an optional sign, digits with an optional point, at least one digit.
    [None] is the [ValueError].  Python's [float] also reads exponents,
    [inf], [nan] and digit-group underscores; those spellings are not
    modelled and no statement below depends on them. *)
Definition py_float (s : string) : option Q :=
  let cs := strip_chars (list_ascii_of_string s) in
  let '(neg, cs1) :=
    match cs with
    | c :: r =>
        if Ascii.eqb c (ascii_of_nat 45) then (true, r)
        else if Ascii.eqb c (ascii_of_nat 43) then (false, r)
        else (false, cs)
    | [] => (false, cs)
    end in
  let '(ip, n1, cs2) := read_digits cs1 0 0 in
  let signed (q : Q) : Q := if neg then Qopp q else q in
  match cs2 with
  | [] => if (n1 =? 0)%nat then None else Some (signed (inject_Z ip))
  | c :: cs3 =>
      if Ascii.eqb c (ascii_of_nat 46) then
        let '(fp, n2, cs4) := read_digits cs3 0 0 in
        match cs4 with
        | [] =>
            if (n1 + n2 =? 0)%nat then None
            else
              let den := 10 ^ Z.of_nat n2 in
              Some (signed (Qmake (ip * den + fp) (Z.to_pos den)))
        | _ => None
        end
      else None
  end.

End Text.
Export Text.

(** ** Exceptions *)

Inductive exn :=
  | ValueError (msg : string)
  | IndexError
  | HostError.

Definition msg_not_loaded : string :=
  "No bolt dimensions loaded. Please load the CSV file first.".
Definition msg_exhausted : string :=
  "No available bolt indices found. All indices have been used.".

Definition is_exhausted (e : exn) : bool :=
  match e with
  | ValueError m => String.eqb m msg_exhausted
  | _ => false
  end.

(** ** [class BoltDimensions] *)

Module Dims.

Record BoltDimensions := mkDims {
  thread_sizes : list string;
  body_diameters : list Q;
  pitches : list Q;
  head_diameters : list Q;
  body_lengths : list Q;
  head_heights : list Q;
  used_indices : gset Z;
  is_loaded : bool
}.

(** [BoltDimensions()] *)
Definition init : BoltDimensions :=
  mkDims [] [] [] [] [] [] ∅ false.

Definition set_used (u : gset Z) (d : BoltDimensions) : BoltDimensions :=
  mkDims (thread_sizes d) (body_diameters d) (pitches d) (head_diameters d)
         (body_lengths d) (head_heights d) u (is_loaded d).

Definition set_loaded (b : bool) (d : BoltDimensions) : BoltDimensions :=
  mkDims (thread_sizes d) (body_diameters d) (pitches d) (head_diameters d)
         (body_lengths d) (head_heights d) (used_indices d) b.

(** The six assignments [self.xs = []] of [load_from_csv]: the used set and
    the loaded flag are left as they are. *)
Definition clear_columns (d : BoltDimensions) : BoltDimensions :=
  mkDims [] [] [] [] [] [] (used_indices d) (is_loaded d).

Definition push_thread_size (v : string) (d : BoltDimensions) :=
  mkDims (thread_sizes d ++ [v]) (body_diameters d) (pitches d)
         (head_diameters d) (body_lengths d) (head_heights d)
         (used_indices d) (is_loaded d).
Definition push_body_diameter (x : Q) (d : BoltDimensions) :=
  mkDims (thread_sizes d) (body_diameters d ++ [x]) (pitches d)
         (head_diameters d) (body_lengths d) (head_heights d)
         (used_indices d) (is_loaded d).
Definition push_pitch (x : Q) (d : BoltDimensions) :=
  mkDims (thread_sizes d) (body_diameters d) (pitches d ++ [x])
         (head_diameters d) (body_lengths d) (head_heights d)
         (used_indices d) (is_loaded d).
Definition push_head_diameter (x : Q) (d : BoltDimensions) :=
  mkDims (thread_sizes d) (body_diameters d) (pitches d)
         (head_diameters d ++ [x]) (body_lengths d) (head_heights d)
         (used_indices d) (is_loaded d).
Definition push_body_length (x : Q) (d : BoltDimensions) :=
  mkDims (thread_sizes d) (body_diameters d) (pitches d)
         (head_diameters d) (body_lengths d ++ [x]) (head_heights d)
         (used_indices d) (is_loaded d).
Definition push_head_height (x : Q) (d : BoltDimensions) :=
  mkDims (thread_sizes d) (body_diameters d) (pitches d)
         (head_diameters d) (body_lengths d) (head_heights d ++ [x])
         (used_indices d) (is_loaded d).

(** What [os.path.exists] and [open] find at the CSV path. *)
Inductive csv_file :=
  | CsvMissing
  | CsvUnreadable
  | CsvText (lines : list string).

(** The body of the inner [try] for one row of at least six values: the
    appends happen one after the other, and the first [float] that raises
    [ValueError] ends the row there ([continue]).  The flag tells whether
    [line_count += 1] was reached. *)
Definition append_row (v0 v1 v2 v3 v4 v5 : string) (d : BoltDimensions)
    : BoltDimensions * bool :=
  let d := push_thread_size v0 d in
  match py_float v1 with
  | None => (d, false)
  | Some x1 =>
  let d := push_body_diameter x1 d in
  match py_float v2 with
  | None => (d, false)
  | Some x2 =>
  let d := push_pitch x2 d in
  match py_float v3 with
  | None => (d, false)
  | Some x3 =>
  let d := push_head_diameter x3 d in
  match py_float v4 with
  | None => (d, false)
  | Some x4 =>
  let d := push_body_length x4 d in
  match py_float v5 with
  | None => (d, false)
  | Some x5 => (push_head_height x5 d, true)
  end end end end end.

(** One turn of [for line in file]. *)
Definition load_line (line : string) (st : BoltDimensions * Z)
    : BoltDimensions * Z :=
  let '(d, line_count) := st in
  if String.eqb (strip line) EmptyString then st
  else
    match _parse_csv_line line with
    | v0 :: v1 :: v2 :: v3 :: v4 :: v5 :: _ =>
        let '(d', counted) := append_row v0 v1 v2 v3 v4 v5 d in
        (d', if counted then line_count + 1 else line_count)
    | _ => st
    end.

Definition load_lines (lines : list string) (st : BoltDimensions * Z)
    : BoltDimensions * Z :=
  fold_left (fun st line => load_line line st) lines st.

(** [load_from_csv(file_path)]: the new state and the returned flag.  The
    first line of the file is the header ([file.readline()]). *)
Definition load_from_csv (file : csv_file) (d : BoltDimensions)
    : BoltDimensions * bool :=
  match file with
  | CsvMissing => (d, false)
  | CsvUnreadable => (clear_columns d, false)
  | CsvText lines =>
      let '(d', line_count) := load_lines (tail lines) (clear_columns d, 0) in
      let loaded := 0 <? line_count in
      (set_loaded loaded d', loaded)
  end.

(** [set_used_indices(indices)]: [self.used_indices = set(indices)] *)
Definition set_used_indices (indices : list Z) (d : BoltDimensions)
    : BoltDimensions :=
  set_used (list_to_set indices) d.

(** [set(range(n))] *)
Definition range_set (n : Z) : gset Z :=
  list_to_set (seqZ 0 n).

(** [len(self.body_diameters)], the size of the table for the sampler. *)
Definition table_size (d : BoltDimensions) : Z :=
  Z.of_nat (length (body_diameters d)).

(** [list(set(range(len(self.body_diameters))) - self.used_indices)]: the
    elements of the difference, in the order the set yields them. *)
Definition available_indices (d : BoltDimensions) : list Z :=
  elements (range_set (table_size d) ∖ used_indices d).

Definition not_loaded (d : BoltDimensions) : bool :=
  negb (is_loaded d) || (table_size d =? 0).

(** [get_unused_indices()] *)
Definition get_unused_indices (d : BoltDimensions) : list Z :=
  if not_loaded d then [] else available_indices d.

(** [random.choice(x :: l)] when the generator picks position [r]; a pick
    is brought into range by taking it modulo the length. *)
Definition random_choice {A} (r : nat) (x : A) (l : list A) : A :=
  nth (r mod S (length l)) (x :: l) x.

(** The text of the message box of [get_random_unused_bolt]. *)
Definition box_all_used : string :=
  "All bolt dimensions have been used. No more unique bolts can be created.".

(** [get_random_unused_bolt()], with the pick [r] of [random.choice] and
    with [ui] telling whether the global [ui] is set.  It gives the index
    or the exception raised, the sampler afterwards, and the message boxes
    it has opened with [ui.messageBox]; a message box is modal: the call
    goes on only when the operator has closed it. *)
Definition get_random_unused_bolt (ui : bool) (r : nat) (d : BoltDimensions)
    : (exn + Z) * BoltDimensions * list string :=
  if not_loaded d then (inl (ValueError msg_not_loaded), d, [])
  else
    match available_indices d with
    | [] =>
        (inl (ValueError msg_exhausted), d,
         if ui then [box_all_used] else [])
    | i :: rest =>
        let index := random_choice r i rest in
        (inr index, set_used ({[ index ]} ∪ used_indices d) d, [])
    end.

End Dims.
Export Dims.

(** ** The host application, as seen by one turn of the batch loop *)

(** Everything the script asks of the outside during one attempt: the
    progress dialog, the random generator and the modelling engine. *)
Record attempt := mkAttempt {
  at_cancelled : bool;       (* [progressDialog.wasCancelled] *)
  at_pick : nat;             (* [random.choice(available_indices)] *)
  at_name : Z;               (* [random.randint(1000, 9999)] *)
  at_thread_pick : nat;      (* [random.choice] among the thread types *)
  at_geometry_ok : bool;     (* the modelling calls before [createThreads] *)
  at_thread_ok : string -> string -> bool;
                             (* thread type, designation: does
                                [createThreadInfo .. threads.add] succeed *)
  at_export_ok : bool;       (* [export_as_stl] *)
  at_cleanup_ok : bool       (* deleting the occurrence after the export *)
}.

(** ** [class Bolt] *)

Module BoltModel.

Record Bolt := mkBolt {
  index : Z;
  boltName : string;
  headDiameter : Q;
  bodyDiameter : Q;
  headHeight : Q;
  bodyLengthValue : Q;
  threadType : string;
  closest_size : pynum;
  std_pitch : Q;
  threadDesignation : string;
  threadClass : string;
  thread_created : bool
}.

Definition set_boltName (n : string) (b : Bolt) : Bolt :=
  mkBolt (index b) n (headDiameter b) (bodyDiameter b) (headHeight b)
         (bodyLengthValue b) (threadType b) (closest_size b) (std_pitch b)
         (threadDesignation b) (threadClass b) (thread_created b).

Definition set_thread_created (t : bool) (b : Bolt) : Bolt :=
  mkBolt (index b) (boltName b) (headDiameter b) (bodyDiameter b)
         (headHeight b) (bodyLengthValue b) (threadType b) (closest_size b)
         (std_pitch b) (threadDesignation b) (threadClass b) t.

(** [xs[i]] for an index that is not negative. *)
Definition item (xs : list Q) (i : Z) : exn + Q :=
  match xs !! Z.to_nat i with
  | Some x => inr x
  | None => inl IndexError
  end.

(** [Bolt(position_x, position_y)]: the draw, then the reads of the
    columns at the drawn index, then the thread designation.  Its [except]
    clause reports and raises again, so an exception leaves through the
    constructor; the sampler state is returned in both cases.  The
    attributes that only carry random jitter into the geometry (cut angle,
    chamfer distance, fillet radius) and the placement are left out: no
    branch of the script reads them.  A bolt is constructed inside the
    batch loop only, where the global [ui] is set (the loop has opened its
    progress dialog through it); the message boxes of the draw are not
    carried further. *)
Definition Bolt_init (a : attempt) (d : BoltDimensions)
    : (exn + Bolt) * BoltDimensions :=
  match get_random_unused_bolt true (at_pick a) d with
  | (inl e, d', _) => (inl e, d')
  | (inr i, d', _) =>
      match item (head_diameters d') i with
      | inl e => (inl e, d')
      | inr hd =>
      match item (body_diameters d') i with
      | inl e => (inl e, d')
      | inr bd =>
      match item (head_heights d') i with
      | inl e => (inl e, d')
      | inr hh =>
      match item (body_lengths d') i with
      | inl e => (inl e, d')
      | inr bl =>
          let size := nearest_std_size bd in
          let pitch := coarse_pitch size in
          (inr (mkBolt i ("Bolt_" +:+ pretty (at_name a))
                  (hd / 10) (bd / 10) (hh / 10) (bl / 10)
                  (random_choice (at_thread_pick a) "ANSI Metric M Profile"
                     [ "GB Metric profile"; "ISO Metric profile" ])
                  size pitch (designation size pitch) "6g" false),
           d')
      end end end end
  end.

(** [createThreads(newComp, sideFace)]: the returned flag, the bolt, and
    the designations handed to the host, in order. *)
Definition createThreads (a : attempt) (b : Bolt)
    : bool * Bolt * list string :=
  if at_thread_ok a (threadType b) (threadDesignation b) then
    (true, set_thread_created true b, [threadDesignation b])
  else
    let available_sizes :=
      filter (fun size => num_ltb size (closest_size b) = true) std_sizes in
    match available_sizes with
    | s :: rest =>
        let new_size := max_from s rest in
        let new_pitch := dict_get pitch_map new_size (10#10) in
        let new_designation := designation new_size new_pitch in
        if at_thread_ok a (threadType b) new_designation then
          (true, set_thread_created true b,
           [threadDesignation b; new_designation])
        else (false, b, [threadDesignation b; new_designation])
    | [] =>
        let basic_designation := bare_designation (closest_size b) in
        if at_thread_ok a (threadType b) basic_designation then
          (true, set_thread_created true b,
           [threadDesignation b; basic_designation])
        else (false, b, [threadDesignation b; basic_designation])
    end.

(** The component a finished bolt lives in; its body carries the bolt's
    name. *)
Inductive component := Component (body_name : string).

(** [buildBolt(rootComp)]: [None] when a modelling step raised (the
    handler deletes the occurrence) or when [createThreads] returned
    [False] (the occurrence is deleted and the bolt discarded). *)
Definition buildBolt (a : attempt) (b : Bolt)
    : option component * Bolt * list string :=
  if at_geometry_ok a then
    let '(thread_result, b', tried) := createThreads a b in
    if thread_result then (Some (Component (boltName b')), b', tried)
    else (None, b', tried)
  else (None, b, []).

End BoltModel.
Export BoltModel.

(** ** The batch loop: [createAndExportBolts] *)

Module Driver.

(** What the loop did, in order; kept beside the counters so that
    statements can speak about single draws and thread attempts. *)
Inductive event :=
  | Drew (i : Z)
  | DrawFailed (e : exn)
  | InitFailed (e : exn)
  | ThreadTried (designation : string)
  | Discarded (name : string)
  | Exported (stl_name : string)
  | ExportFailed (stl_name : string).

Record loop_state := mkLoop {
  success_count : Z;
  error_count : Z;
  retry_count : Z;
  export_count : Z;
  attempts : Z;
  dims : BoltDimensions;
  log : list event
}.

Definition loop_start (d : BoltDimensions) : loop_state :=
  mkLoop 0 0 0 0 0 d [].

(** The events of the constructor call [Bolt(0, 0)] with result [r]: the
    draw it starts with, and the exception raised after a successful draw
    when there is one. *)
Definition init_events (a : attempt) (d : BoltDimensions) (r : exn + Bolt)
    : list event :=
  match (get_random_unused_bolt true (at_pick a) d).1.1 with
  | inl e => [DrawFailed e]
  | inr i =>
      match r with
      | inl e => [Drew i; InitFailed e]
      | inr _ => [Drew i]
      end
  end.

(** The body of the [while] loop after the cancel check, for the attempt
    [a]; ends with [attempts += 1]. *)
Definition iteration (start_bolt_num : Z) (a : attempt) (st : loop_state)
    : loop_state :=
  let '(r, d') := Bolt_init a (dims st) in
  let ev0 := init_events a (dims st) r in
  match r with
  | inl e =>
      (* [except Exception: error_count += 1] *)
      mkLoop (success_count st) (error_count st + 1) (retry_count st)
             (export_count st) (attempts st + 1) d' (log st ++ ev0)
  | inr bolt =>
      let current_bolt_num := start_bolt_num + success_count st in
      let bolt := set_boltName ("bolt_" +:+ pretty current_bolt_num) bolt in
      let '(comp, bolt', tried) := buildBolt a bolt in
      let ev1 := (ev0 ++ (ThreadTried <$> tried))%list in
      match comp with
      | Some _ =>
          let stl_name := "bolt_" +:+ pretty current_bolt_num +:+ ".stl" in
          if at_export_ok a then
            if at_cleanup_ok a then
              mkLoop (success_count st + 1) (error_count st) (retry_count st)
                     (export_count st + 1) (attempts st + 1) d'
                     (log st ++ ev1 ++ [Exported stl_name])
            else
              (* the clean-up raised after [export_count += 1] *)
              mkLoop (success_count st) (error_count st + 1) (retry_count st)
                     (export_count st + 1) (attempts st + 1) d'
                     (log st ++ ev1 ++ [Exported stl_name])
          else
            mkLoop (success_count st + 1) (error_count st) (retry_count st)
                   (export_count st) (attempts st + 1) d'
                   (log st ++ ev1 ++ [ExportFailed stl_name])
      | None =>
          mkLoop (success_count st) (error_count st) (retry_count st + 1)
                 (export_count st) (attempts st + 1) d'
                 (log st ++ ev1 ++ [Discarded (boltName bolt')])
      end
  end.

(** [while success_count < count and attempts < max_attempts], with the
    [break] on cancellation.  Every turn adds one to [attempts], so the
    loop makes at most [max_attempts] turns: [turns] counts the ones still
    allowed, and [env] gives the host's behaviour at each attempt number. *)
Fixpoint run_loop (env : nat -> attempt) (count max_attempts start_bolt_num : Z)
    (turns : nat) (st : loop_state) : loop_state :=
  match turns with
  | O => st
  | S turns' =>
      if (success_count st <? count) && (attempts st <? max_attempts) then
        let a := env (Z.to_nat (attempts st)) in
        if at_cancelled a then st
        else run_loop env count max_attempts start_bolt_num turns'
                      (iteration start_bolt_num a st)
      else st
  end.

(** [createAndExportBolts(count, spacing, create_threads, export_dir,
    start_bolt_num)]: the returned flag [export_count > 0] and the final
    state of the loop. *)
Definition createAndExportBolts (env : nat -> attempt) (d : BoltDimensions)
    (count : Z) (spacing : Q) (create_threads : bool) (export_dir : string)
    (start_bolt_num : Z) : bool * loop_state :=
  let max_attempts := count * 3 in
  let st := run_loop env count max_attempts start_bolt_num
                     (Z.to_nat max_attempts) (loop_start d) in
  (0 <? export_count st, st).

End Driver.
Export Driver.

(** ** The checkpoint file *)

Module Tracking.

(** The JSON object [{"last_bolt": .., "used_indices": [..]}]. *)
Record tracking_data := mkTracking {
  last_bolt : Z;
  used_indices : list Z
}.

(** What [open] and [json.load] make of a file that exists. *)
Inductive file_content :=
  | Unreadable                       (* [open] or [json.load] raises *)
  | Parsed (data : tracking_data).

(** The files that exist, by path. *)
Abbreviation file_system := (gmap string file_content).

Definition default_tracking : tracking_data := mkTracking 0 [].

(** [load_tracking_data(file_path)] *)
Definition load_tracking_data (fs : file_system) (file_path : string)
    : tracking_data :=
  match fs !! file_path with
  | Some (Parsed data) => data
  | Some Unreadable => default_tracking
  | None => default_tracking
  end.

End Tracking.

(** ** The command handler: [BatchBoltCommandExecuteHandler.notify] *)

Module Command.

Record inputs := mkInputs {
  spacing : Q;
  csv_path : string;
  create_threads : bool;
  export_dir : string;
  tracking_file : string
}.

(** The outside of one run. *)
Record world := mkWorld {
  default_export_dir : string;   (* [~/Desktop/stl_files] *)
  dir_ok : string -> bool;       (* [ensure_export_directory] *)
  files : Tracking.file_system;
  csv : string -> csv_file;
  env : nat -> attempt
}.

(** [os.path.join(dir, name)] for a relative [name]. *)
Definition path_join (dir name : string) : string :=
  dir +:+ "/" +:+ name.

Inductive notice :=
  | ExportDirFailed
  | NoCsvPath
  | CampaignComplete
  | CsvLoadFailed
  | NoDataLoaded
  | BatchCompleted (current_batch start_bolt_num end_bolt_num : Z)
                   (next : option (Z * Z * Z))
  | NothingExported.

Record outcome := mkOutcome {
  isValidResult : bool;
  shown : notice;
  saved : option (string * Tracking.tracking_data);
                                 (* the call of [save_tracking_data] *)
  final_dims : BoltDimensions;
  batch : option loop_state
}.

(** The sizing of a batch in [notify]: [bolts_to_create],
    [start_bolt_num] and [end_bolt_num]. *)
Definition batch_plan (last_bolt_num : Z) : Z * Z * Z :=
  let bolts_remaining := 1000 - last_bolt_num in
  let bolts_to_create := Z.min 250 bolts_remaining in
  let start_bolt_num := last_bolt_num + 1 in
  let end_bolt_num := start_bolt_num + bolts_to_create - 1 in
  (bolts_to_create, start_bolt_num, end_bolt_num).

(** The export directory after [if not export_dir: ..]. *)
Definition resolved_export_dir (i : inputs) (w : world) : string :=
  if String.eqb (export_dir i) EmptyString then default_export_dir w
  else export_dir i.

(** The tracking file after [if not tracking_file: ..]. *)
Definition resolved_tracking_file (i : inputs) (w : world) : string :=
  if String.eqb (tracking_file i) EmptyString
  then path_join (resolved_export_dir i w) "bolt_tracking.json"
  else tracking_file i.

(** [notify(args)] on the global [bolt_dimensions] [d]; [i] holds the
    values read from the dialog. *)
Definition notify (i : inputs) (w : world) (d : BoltDimensions) : outcome :=
  let export_dir := resolved_export_dir i w in
  let tracking_file := resolved_tracking_file i w in
  if negb (dir_ok w export_dir) then
    mkOutcome false ExportDirFailed None d None
  else if String.eqb (csv_path i) EmptyString then
    mkOutcome false NoCsvPath None d None
  else
    let tracking_data := Tracking.load_tracking_data (files w) tracking_file in
    let last_bolt_num := Tracking.last_bolt tracking_data in
    let used_indices := Tracking.used_indices tracking_data in
    let current_batch := last_bolt_num / 250 + 1 in
    if 4 <? current_batch then
      mkOutcome false CampaignComplete None d None
    else
      let '(bolts_to_create, start_bolt_num, end_bolt_num) :=
        batch_plan last_bolt_num in
      let '(d1, loaded) := load_from_csv (csv w (csv_path i)) d in
      if negb loaded then
        mkOutcome false CsvLoadFailed None d1 None
      else if negb (is_loaded d1) then
        mkOutcome false NoDataLoaded None d1 None
      else
        let d2 := set_used_indices used_indices d1 in
        let '(result, st) :=
          createAndExportBolts (env w) d2 bolts_to_create (spacing i)
            (create_threads i) export_dir start_bolt_num in
        if result then
          let tracking_data :=
            Tracking.mkTracking end_bolt_num
              (elements (Dims.used_indices (dims st))) in
          let next_batch := current_batch + 1 in
          let next :=
            if next_batch <=? 4
            then Some (next_batch, end_bolt_num + 1, end_bolt_num + 1 + 249)
            else None in
          mkOutcome true
            (BatchCompleted current_batch start_bolt_num end_bolt_num next)
            (Some (tracking_file, tracking_data)) (dims st) (Some st)
        else
          mkOutcome false NothingExported None (dims st) (Some st).

End Command.
Export Command.

(** ** The thread retry policy in the words of the specification *)

Module RetrySpec.

(** The nearest smaller standard size: the largest entry of the table
    below [size], when there is one. *)
Definition nearest_smaller (size : pynum) : option pynum :=
  match filter (fun x => num_ltb x size = true) std_sizes with
  | [] => None
  | s :: rest => Some (max_from s rest)
  end.

(** "If the exact designation fails, the second attempt uses the nearest
    smaller standard size with its mapped pitch; if that also fails, a third
    attempt uses a bare designation of that size; only after all three fail
    is the bolt discarded."  For a bolt whose first two designations the
    host refuses, this asks for the third attempt and lets it decide. *)
Definition three_tier_retry (a : attempt) (b : Bolt) : Prop :=
  forall smaller,
    nearest_smaller (closest_size b) = Some smaller ->
    at_thread_ok a (threadType b) (threadDesignation b) = false ->
    at_thread_ok a (threadType b)
      (designation smaller (coarse_pitch smaller)) = false ->
    let '(result, _, tried) := createThreads a b in
    In (bare_designation smaller) tried /\
    result = at_thread_ok a (threadType b) (bare_designation smaller).

End RetrySpec.

(** ** The exhausted draw in the words of the specification *)

Module SamplerSpec.


End SamplerSpec.

(** ** Sample data for the concrete runs *)

Module Samples.

Definition nl : string := String (ascii_of_nat 10) EmptyString.

Definition header : string :=
  "Thread Size,Body Diameter,Pitch,Head Diameter,Body Length,Head Height"
  +:+ nl.

Definition csv_one_row : csv_file :=
  CsvText [ header; "M8,7.8,1.25,13,40,5.3" +:+ nl ].

Definition csv_two_rows : csv_file :=
  CsvText [ header; "M8,7.8,1.25,13,40,5.3" +:+ nl; "M6,6,1,10,30,4" +:+ nl ].

(** The table of [csv_one_row], loaded, nothing used. *)
Definition table_one_row : BoltDimensions :=
  fst (load_from_csv csv_one_row Dims.init).


(** A host on which everything succeeds. *)
Definition host_ok : attempt :=
  mkAttempt false 0 1234 2 true (fun _ _ => true) true true.

(** A host that refuses every thread designation. *)
Definition host_no_threads : attempt :=
  mkAttempt false 0 1234 2 true (fun _ _ => false) true true.

(** A host that accepts the bare designation M6 and nothing else. *)
Definition host_bare_M6_only : attempt :=
  mkAttempt false 0 1234 2 true (fun _ d => String.eqb d "M6") true true.

(** The operator presses Cancel. *)
Definition host_cancel : attempt :=
  mkAttempt true 0 1234 2 true (fun _ _ => true) true true.

(** The bolt built from the row with body diameter 7.8. *)
Definition bolt_7_8 : Bolt :=
  mkBolt 0 "Bolt_1234" (13 / 10) ((78 # 10) / 10) ((53 # 10) / 10) (40 / 10)
         "ISO Metric profile" (PyInt 8) (125 # 100) "M8x1.25" "6g" false.

(** A row whose fourth field is not a number, after a good row. *)
Definition csv_bad_row : csv_file :=
  CsvText [ header; "M8,7.8,1.25,13,40,5.3" +:+ nl;
            "M10,9.8,1.5,sixteen,50,6.4" +:+ nl ].

Definition desktop : string := "~/Desktop/stl_files".

(** The dialog as it opens, with a CSV path typed in. *)
Definition dialog : inputs :=
  mkInputs 5 "bolts.csv" true EmptyString EmptyString.

Definition checkpoint (last : Z) (used : list Z)
    : gmap string Tracking.file_content :=
  {[ path_join desktop "bolt_tracking.json" :=
       Tracking.Parsed (Tracking.mkTracking last used) ]}.

(** First run, two rows in the table; the operator cancels after the
    first bolt. *)
Definition world_cancelled : world :=
  mkWorld desktop (fun _ => true) ∅ (fun _ => csv_two_rows)
          (fun n => if (n =? 0)%nat then host_ok else host_cancel).

(** First run, one row in the table: after the first bolt every draw
    fails and the loop runs into its attempt cap. *)
Definition world_capped : world :=
  mkWorld desktop (fun _ => true) ∅ (fun _ => csv_one_row)
          (fun _ => host_ok).

(** Two bolts to go, one row in the table, no thread can be made. *)
Definition world_exhausted : world :=
  mkWorld desktop (fun _ => true) (checkpoint 998 [])
          (fun _ => csv_one_row) (fun _ => host_no_threads).

(** The campaign stands at 760 bolts. *)
Definition world_760 : world :=
  mkWorld desktop (fun _ => true) (checkpoint 760 [])
          (fun _ => csv_two_rows) (fun _ => host_ok).

(** The campaign stands at 1000 bolts. *)
Definition world_1000 : world :=
  mkWorld desktop (fun _ => true) (checkpoint 1000 [])
          (fun _ => csv_two_rows) (fun _ => host_ok).

(** The loop about to start on the one-row table whose row is used. *)
Definition exhausted_start : loop_state :=
  loop_start (set_used {[ 0 ]} table_one_row).

End Samples.

(** ** Reading the log of a run *)

Module Trace.

(** The indices the sampler returned, in order. *)
Definition drawn (l : list event) : list Z :=
  omap (fun e => match e with Drew i => Some i | _ => None end) l.

Definition is_draw (e : event) : bool :=
  match e with
  | Drew _ | DrawFailed _ => true
  | _ => false
  end.

(** The calls of the sampler, successful or not. *)
Definition draw_calls (l : list event) : nat :=
  length (filter (fun e => is_draw e = true) l).

(** The calls of the sampler made after the first one that raised the
    exhaustion error. *)
Fixpoint draws_after_exhaustion (l : list event) : nat :=
  match l with
  | [] => 0
  | DrawFailed e :: l' =>
      if is_exhausted e then draw_calls l' else draws_after_exhaustion l'
  | _ :: l' => draws_after_exhaustion l'
  end.

(** "Exhaustion is surfaced up and aborts remaining bolt creation for the
    run rather than retrying the draw": once a draw has raised the
    exhaustion error, the run makes no further draw. *)
Definition aborts_on_exhaustion (st : loop_state) : Prop :=
  draws_after_exhaustion (log st) = 0%nat.

(** The event a draw on an exhausted table leaves in the log. *)
Definition exhaustion_event : event := DrawFailed (ValueError msg_exhausted).

(** What holds, during a run that started from the used set [U] on a table
    of size [N], of the sampler and of the draws logged so far. *)
Definition sampling_inv (U : gset Z) (N : Z) (st : loop_state) : Prop :=
  table_size (dims st) = N /\
  NoDup (drawn (log st)) /\
  Forall (fun i => 0 <= i < N /\ i ∉ U) (drawn (log st)) /\
  used_indices (dims st) = U ∪ list_to_set (drawn (log st)).

End Trace.
Export Trace.


(** * Properties *)

(** ** The standard thread table *)

Section TableSearch.




Lemma max_from_member best l :
  max_from best l = best \/ In (max_from best l) l.
Proof.
  revert best. induction l as [|x l IH]; intros best; simpl.
  - now left.
  - destruct (num_ltb best x).
    + destruct (IH x) as [E|E]; right; [left; symmetry | right]; exact E.
    + destruct (IH best) as [E|E]; [left | right; right]; exact E.
Qed.

Lemma num_ltb_false x y :
  num_ltb x y = false -> (num_val y <= num_val x)%Q.
Proof.
  unfold num_ltb. intros H. apply negb_false_iff in H.
  now apply Qle_bool_iff.
Qed.

Lemma num_ltb_true x y :
  num_ltb x y = true -> (num_val x < num_val y)%Q.
Proof.
  unfold num_ltb. intros H. apply negb_true_iff in H.
  apply Qnot_le_lt. intros L. apply Qle_bool_iff in L. congruence.
Qed.

Lemma max_from_ge_best best l :
  (num_val best <= num_val (max_from best l))%Q.
Proof.
  revert best. induction l as [|x l IH]; intros best; simpl.
  - apply Qle_refl.
  - destruct (num_ltb best x) eqn:E.
    + eapply Qle_trans; [|apply IH].
      now apply Qlt_le_weak, num_ltb_true.
    + apply IH.
Qed.

Lemma max_from_greatest best l :
  Forall (fun x => (num_val x <= num_val (max_from best l))%Q) (best :: l).
Proof.
  revert best. induction l as [|x l IH]; intros best.
  - constructor; [apply Qle_refl | constructor].
  - constructor; [apply max_from_ge_best|].
    simpl. destruct (num_ltb best x) eqn:E.
    + apply IH.
    + specialize (IH best). inversion IH as [|? ? Hb Hl]; subst.
      constructor; [|exact Hl].
      eapply Qle_trans; [|exact Hb]. now apply num_ltb_false.
Qed.


(** Every standard size has an entry in the pitch map, so the default
    pitch is never used for a size the constructor computes. *)
Lemma std_sizes_all_mapped :
  Forall (fun size => is_Some (dict_lookup pitch_map size)) std_sizes.
Proof.
  unfold std_sizes.
  repeat (constructor; [vm_compute; eexists; reflexivity|]). constructor.
Qed.

End TableSearch.

(** ** The constructor [Bolt(..)] *)

Section Constructor.




End Constructor.

Section ConstructorSucceeds.






End ConstructorSucceeds.


(** ** Thread creation *)

Section ThreadRetry.

Lemma smaller_sizes_spec size x :
  In x (filter (fun y => num_ltb y size = true) std_sizes) <->
  In x std_sizes /\ (num_val x < num_val size)%Q.
Proof.
  rewrite <- !list_elem_of_In, list_elem_of_filter. split.
  - intros [H1 H2]. split; [exact H2 | now apply num_ltb_true].
  - intros [H1 H2]. split; [|exact H1].
    unfold num_ltb. apply negb_true_iff.
    destruct (Qle_bool (num_val size) (num_val x)) eqn:E; [|reflexivity].
    apply Qle_bool_iff in E. exfalso. revert H2. now apply Qle_not_lt.
Qed.

(** The sample bolt is the one the constructor makes of the sample row. *)
Example bolt_7_8_constructed :
  fst (Bolt_init Samples.host_ok Samples.table_one_row) = inr Samples.bolt_7_8.
Proof. vm_compute. reflexivity. Qed.

End ThreadRetry.

(** C1, as stated, fails.  The sample bolt has the designation M8x1.25 and
    the nearest smaller size 6.  On a host that refuses M8x1.25 and M6x1.0
    but would accept the bare M6, [createThreads] makes two attempts and
    returns [False], and [buildBolt] discards the bolt: the bare designation
    is never tried. *)
Lemma C1_no_third_attempt :
  ~ RetrySpec.three_tier_retry Samples.host_bare_M6_only Samples.bolt_7_8.
Proof.
  unfold RetrySpec.three_tier_retry. intros H.
  specialize (H (PyInt 6)).
  assert (E : createThreads Samples.host_bare_M6_only Samples.bolt_7_8 =
              (false, Samples.bolt_7_8, ["M8x1.25"; "M6x1.0"])).
  { vm_compute. reflexivity. }
  rewrite E in H.
  destruct H as [_ H]; try (vm_compute; reflexivity).
  vm_compute in H. discriminate H.
Qed.

(** C1, amended.  [createThreads] makes one attempt with the bolt's exact
    designation and, when the host refuses it, exactly one more, which
    decides: with the largest standard size below the bolt's and the pitch
    mapped to it when such a size exists, and with the bare designation of
    the bolt's own size when none exists.  [buildBolt] discards the bolt
    exactly when a modelling step or this thread creation fails. *)
Theorem C1_two_tier_retry (a : attempt) (b : Bolt) :
  let '(result, _, tried) := createThreads a b in
  let ok := at_thread_ok a (threadType b) in
  let d1 := threadDesignation b in
  ((ok d1 = true /\ tried = [d1] /\ result = true) \/
   (ok d1 = false /\
    exists d2, tried = [d1; d2] /\ result = ok d2 /\
      ((exists s,
          In s std_sizes /\ (num_val s < num_val (closest_size b))%Q /\
          Forall (fun x => (num_val x < num_val (closest_size b))%Q ->
                           (num_val x <= num_val s)%Q) std_sizes /\
          d2 = designation s (dict_get pitch_map s (10#10))) \/
       (Forall (fun x => ~ (num_val x < num_val (closest_size b))%Q)
               std_sizes /\
        d2 = bare_designation (closest_size b))))) /\
  (fst (fst (buildBolt a b)) = None <->
   at_geometry_ok a = false \/ result = false).
Proof.
  pose proof (smaller_sizes_spec (closest_size b)) as F.
  unfold buildBolt, createThreads.
  destruct (at_thread_ok a (threadType b) (threadDesignation b)) eqn:E1.
  { split; [left; auto|].
    destruct (at_geometry_ok a); simpl; intuition congruence. }
  destruct (filter (fun size => num_ltb size (closest_size b) = true) std_sizes)
    as [|s rest] eqn:Ef.
  - destruct (at_thread_ok a (threadType b) (bare_designation (closest_size b)))
      eqn:E2; (split;
      [ right; split; [reflexivity|];
        exists (bare_designation (closest_size b)); rewrite E2;
        repeat split; right; split; [|reflexivity];
        apply Forall_forall; intros x Hx Hlt;
        apply list_elem_of_In in Hx;
        destruct (proj2 (F x) (conj Hx Hlt))
      | destruct (at_geometry_ok a); simpl; intuition congruence ]).
  - set (n := max_from s rest).
    assert (Hn : In n (s :: rest)).
    { destruct (max_from_member s rest) as [E|E];
        [left; symmetry|right]; exact E. }
    pose proof (max_from_greatest s rest) as Hg. fold n in Hg.
    assert (Hs : exists s0, In s0 std_sizes /\
        (num_val s0 < num_val (closest_size b))%Q /\
        Forall (fun x => (num_val x < num_val (closest_size b))%Q ->
                         (num_val x <= num_val s0)%Q) std_sizes /\
        designation n (dict_get pitch_map n (10#10)) =
        designation s0 (dict_get pitch_map s0 (10#10))).
    { exists n. apply F in Hn. destruct Hn as [Hn1 Hn2].
      repeat split; auto.
      apply Forall_forall. intros x Hx Hlt. apply list_elem_of_In in Hx.
      assert (Hx' : In x (s :: rest)) by (apply F; auto).
      rewrite Forall_forall in Hg. apply Hg. now apply list_elem_of_In. }
    destruct (at_thread_ok a (threadType b)
                (designation n (dict_get pitch_map n (10#10)))) eqn:E2;
      (split;
       [ right; split; [reflexivity|];
         exists (designation n (dict_get pitch_map n (10#10)));
         rewrite E2; repeat split; left;
         destruct Hs as (s0 & ? & ? & ? & ?); exists s0; auto
       | destruct (at_geometry_ok a); simpl; intuition congruence ]).
Qed.

(** ** The loader *)

Section Loader.

Lemma append_row_size v0 v1 v2 v3 v4 v5 d :
  let r := append_row v0 v1 v2 v3 v4 v5 d in
  table_size d <= table_size (fst r) /\
  (snd r = true -> table_size (fst r) = table_size d + 1) /\
  used_indices (fst r) = used_indices d.
Proof.
  unfold append_row, table_size.
  destruct (py_float v1); [|simpl; repeat split; [lia|discriminate]].
  destruct (py_float v2);
    [|simpl; rewrite length_app; simpl; repeat split; [lia|discriminate]].
  destruct (py_float v3);
    [|simpl; rewrite length_app; simpl; repeat split; [lia|discriminate]].
  destruct (py_float v4);
    [|simpl; rewrite length_app; simpl; repeat split; [lia|discriminate]].
  destruct (py_float v5);
    simpl; rewrite length_app; simpl; repeat split; try lia; discriminate.
Qed.

(** The counted lines never outnumber the body diameters stored. *)
Lemma load_line_count line d c :
  c <= table_size d ->
  (load_line line (d, c)).2 <= table_size (load_line line (d, c)).1.
Proof.
  intros H. unfold load_line.
  destruct (String.eqb (strip line) EmptyString); [exact H|].
  destruct (_parse_csv_line line) as [|v0 [|v1 [|v2 [|v3 [|v4 [|v5 rest]]]]]];
    try exact H.
  pose proof (append_row_size v0 v1 v2 v3 v4 v5 d) as (H1 & H2 & _).
  destruct (append_row v0 v1 v2 v3 v4 v5 d) as [d' counted].
  simpl in *. destruct counted; [rewrite H2 by reflexivity|]; lia.
Qed.

Lemma load_lines_count lines d c :
  c <= table_size d ->
  (load_lines lines (d, c)).2 <= table_size (load_lines lines (d, c)).1.
Proof.
  revert d c. induction lines as [|line lines IH]; intros d c H.
  - exact H.
  - change (load_lines (line :: lines) (d, c))
      with (load_lines lines (load_line line (d, c))).
    pose proof (load_line_count line d c H) as H'.
    destruct (load_line line (d, c)) as [d1 c1]. now apply IH.
Qed.

(** A load that reports success leaves a table the sampler accepts. *)
Lemma load_from_csv_loaded file d :
  snd (load_from_csv file d) = true ->
  not_loaded (fst (load_from_csv file d)) = false.
Proof.
  unfold load_from_csv. destruct file as [| |lines]; try discriminate.
  pose proof (load_lines_count (tail lines) (clear_columns d) 0) as H.
  destruct (load_lines (tail lines) (clear_columns d, 0)) as [d' c].
  simpl in *. intros Hc. unfold not_loaded, table_size in *. simpl.
  rewrite Hc. simpl. apply Z.ltb_lt in Hc.
  apply Z.eqb_neq. specialize (H ltac:(lia)). lia.
Qed.

End Loader.

(** ** The sampler *)

Section Sampler.

Lemma elem_of_range_set n i : i ∈ range_set n <-> 0 <= i < n.
Proof.
  unfold range_set. rewrite elem_of_list_to_set, elem_of_seqZ. lia.
Qed.

Lemma elem_of_available d i :
  i ∈ available_indices d <->
  i ∈ range_set (table_size d) ∖ used_indices d.
Proof. unfold available_indices. apply elem_of_elements. Qed.

Lemma available_in_range d i :
  i ∈ available_indices d <->
  (0 <= i < table_size d) /\ i ∉ used_indices d.
Proof.
  rewrite elem_of_available, elem_of_difference, elem_of_range_set. tauto.
Qed.



Lemma random_choice_lookup {A} (r : nat) (x : A) (l : list A) :
  (x :: l) !! (r mod length (x :: l))%nat = Some (random_choice r x l).
Proof.
  unfold random_choice. change (length (x :: l)) with (S (length l)).
  assert (H : (r mod S (length l) < length (x :: l))%nat).
  { change (length (x :: l)) with (S (length l)).
    apply Nat.mod_upper_bound. discriminate. }
  apply lookup_lt_is_Some in H. destruct H as [y Hy].
  rewrite Hy. f_equal. symmetry. now apply nth_lookup_Some.
Qed.

(** The three ways a draw can end. *)
Lemma draw_cases ui r d :
  (not_loaded d = true /\
   get_random_unused_bolt ui r d =
     (inl (ValueError msg_not_loaded), d, [])) \/
  (not_loaded d = false /\ available_indices d = [] /\
   get_random_unused_bolt ui r d =
     (inl (ValueError msg_exhausted), d,
      if ui then [box_all_used] else [])) \/
  (not_loaded d = false /\
   exists i,
     available_indices d !! (r mod length (available_indices d))%nat = Some i /\
     get_random_unused_bolt ui r d =
       (inr i, set_used ({[ i ]} ∪ used_indices d) d, [])).
Proof.
  unfold get_random_unused_bolt.
  destruct (not_loaded d); [left; auto|right].
  destruct (available_indices d) as [|i rest] eqn:E; [left; auto|right].
  split; [reflexivity|]. exists (random_choice r i rest).
  split; [apply random_choice_lookup | reflexivity].
Qed.

End Sampler.




(** ** One turn of the batch loop *)

Section Iteration.

Lemma drawn_app l1 l2 : drawn (l1 ++ l2) = (drawn l1 ++ drawn l2)%list.
Proof. unfold drawn. apply omap_app. Qed.

Lemma drawn_thread_tried tried : drawn (ThreadTried <$> tried) = [].
Proof. induction tried as [|t tried IH]; [reflexivity | exact IH]. Qed.

(** The constructor starts with the draw; when the draw raises, so does
    the constructor, and the sampler keeps the state the draw left. *)
Lemma Bolt_init_draw a d :
  match (get_random_unused_bolt true (at_pick a) d).1 with
  | (inl e, d1) => Bolt_init a d = (inl e, d1)
  | (inr i, d1) =>
      snd (Bolt_init a d) = d1 /\
      match fst (Bolt_init a d) with
      | inr b => index b = i
      | inl _ => True
      end
  end.
Proof.
  unfold Bolt_init.
  destruct (get_random_unused_bolt true (at_pick a) d)
    as [[[e|i] d1] boxes]; [reflexivity|]. simpl.
  destruct (item (head_diameters d1) i); [simpl; auto|].
  destruct (item (body_diameters d1) i); [simpl; auto|].
  destruct (item (head_heights d1) i); [simpl; auto|].
  destruct (item (body_lengths d1) i); simpl; auto.
Qed.

(** One turn counts one attempt, leaves the sampler as the draw left it,
    and logs the draw followed by events that are not draws. *)
Lemma iteration_effect start a st :
  let st' := iteration start a st in
  let g := (get_random_unused_bolt true (at_pick a) (dims st)).1 in
  attempts st' = attempts st + 1 /\
  dims st' = snd g /\
  exists evs,
    drawn evs = [] /\
    draw_calls evs = 0%nat /\
    log st' =
      (log st ++
       match fst g with
       | inl e => [DrawFailed e]
       | inr i => [Drew i]
       end ++ evs)%list.
Proof.
  unfold iteration, init_events.
  pose proof (Bolt_init_draw a (dims st)) as HB.
  destruct (get_random_unused_bolt true (at_pick a) (dims st))
    as [[[e|i] d1] boxes]; simpl in HB |- *.
  - rewrite HB. simpl. repeat split. exists []. repeat split.
  - destruct HB as [Hd Hb].
    destruct (Bolt_init a (dims st)) as [[e|b] d'].
    + simpl in Hd. subst d'. simpl. repeat split.
      exists [InitFailed e]. repeat split.
    + simpl in Hd. subst d'.
      destruct (buildBolt a _) as [[comp b'] tried].
      assert (T : forall e, is_draw e = false ->
                draw_calls ((ThreadTried <$> tried) ++ [e]) = 0%nat).
      { intros e He. unfold draw_calls. rewrite filter_app, length_app.
        assert (L : filter (fun e => is_draw e = true)
                      (ThreadTried <$> tried) = []).
        { clear. induction tried as [|t tried IH]; [reflexivity|exact IH]. }
        rewrite L. simpl. destruct e; simpl in *; congruence. }
      destruct comp as [c|];
        [destruct (at_export_ok a); [destruct (at_cleanup_ok a)|]|];
        simpl; (split; [reflexivity|split; [reflexivity|]]);
        match goal with
        | |- context [ (_ ++ [?e])%list ] =>
            exists ((ThreadTried <$> tried) ++ [e])%list
        end;
        (split; [rewrite drawn_app, drawn_thread_tried; reflexivity|]);
        (split; [apply T; reflexivity|]);
        rewrite <- ?app_assoc; reflexivity.
Qed.

(** A property kept by every turn holds when the loop ends. *)
Lemma run_loop_invariant (P : loop_state -> Prop) env count max_attempts start :
  (forall a st, P st -> P (iteration start a st)) ->
  forall turns st, P st -> P (run_loop env count max_attempts start turns st).
Proof.
  intros Hstep. induction turns as [|turns IH]; intros st Hst; simpl.
  - exact Hst.
  - destruct ((success_count st <? count) && (attempts st <? max_attempts));
      [|exact Hst].
    destruct (at_cancelled (env (Z.to_nat (attempts st)))); [exact Hst|].
    apply IH, Hstep, Hst.
Qed.

(** The loop stops for one of its three reasons: with the turns that
    [createAndExportBolts] grants, it never stops for lack of turns. *)
Lemma run_loop_exit env count max_attempts start turns st :
  max_attempts - attempts st <= Z.of_nat turns ->
  let st' := run_loop env count max_attempts start turns st in
  count <= success_count st' \/
  max_attempts <= attempts st' \/
  at_cancelled (env (Z.to_nat (attempts st'))) = true.
Proof.
  revert st. induction turns as [|turns IH]; intros st Hturns; simpl.
  - right. left. lia.
  - destruct (success_count st <? count) eqn:E1; simpl; [|left; lia].
    destruct (attempts st <? max_attempts) eqn:E2; [|right; left; lia].
    destruct (at_cancelled (env (Z.to_nat (attempts st)))) eqn:E3;
      [right; right; exact E3|].
    apply IH.
    destruct (iteration_effect start (env (Z.to_nat (attempts st))) st)
      as (Ha & _).
    rewrite Ha. lia.
Qed.

End Iteration.

(** ** Draws never repeat *)

Section Distinct.

Variable U : gset Z.          (* the used set the run starts from *)
Variable N : Z.               (* the size of the table *)

Lemma sampling_inv_step start a st :
  sampling_inv U N st -> sampling_inv U N (iteration start a st).
Proof.
  intros (HN & Hnd & Hall & Hused).
  destruct (iteration_effect start a st) as (_ & Hd & evs & Hev & _ & Hlog).
  unfold sampling_inv. rewrite Hd, Hlog, !drawn_app, Hev, app_nil_r.
  destruct (draw_cases true (at_pick a) (dims st))
    as [[_ G]|[(_ & _ & G)|(_ & i & Hi & G)]]; rewrite G; simpl.
  - rewrite app_nil_r. auto.
  - rewrite app_nil_r. auto.
  - apply list_elem_of_lookup_2, available_in_range in Hi.
    destruct Hi as [Hr Hu]. rewrite HN in Hr. rewrite Hused in Hu.
    apply not_elem_of_union in Hu. destruct Hu as [HU Hdr].
    rewrite elem_of_list_to_set in Hdr.
    change (drawn [Drew i]) with [i].
    repeat split.
    + exact HN.
    + apply NoDup_app. repeat split; [exact Hnd| |apply NoDup_singleton].
      intros x Hx Hx'. apply list_elem_of_singleton in Hx'. now subst.
    + apply Forall_app. split; [exact Hall|].
      constructor; [split; [exact Hr | exact HU] | constructor].
    + rewrite Hused, list_to_set_app_L. simpl. set_solver.
Qed.

End Distinct.

(** The used set never shrinks during the loop. *)
Lemma run_loop_used_grows env count max_attempts start turns st :
  used_indices (dims st) ⊆
  used_indices (dims (run_loop env count max_attempts start turns st)).
Proof.
  apply (run_loop_invariant
           (fun st' => used_indices (dims st) ⊆ used_indices (dims st'))).
  - intros a st' H.
    destruct (iteration_effect start a st') as (_ & Hd & _). rewrite Hd.
    destruct (draw_cases true (at_pick a) (dims st'))
      as [[_ G]|[(_ & _ & G)|(_ & i & _ & G)]]; rewrite G; simpl;
      set_solver.
  - reflexivity.
Qed.

(** C5.  In a run of the batch loop that starts from the used set of a
    checkpoint, [set(indices)]: the indices the sampler returns are pairwise
    distinct, each lies in [0, N) for the table size N, none is in the
    checkpoint's set, the used set at the end is the checkpoint's set
    together with the returned indices, and from any state of the loop on
    the used set only grows. *)
Theorem C5_draws_distinct env (d : BoltDimensions) (indices : list Z)
    count spacing create_threads export_dir start_bolt_num :
  let d0 := set_used_indices indices d in
  let st := snd (createAndExportBolts env d0 count spacing create_threads
                   export_dir start_bolt_num) in
  let returned := drawn (log st) in
  NoDup returned /\
  Forall (fun i => 0 <= i < table_size d /\
                   i ∉ (list_to_set indices : gset Z)) returned /\
  used_indices (dims st) = list_to_set indices ∪ list_to_set returned /\
  (forall turns st0,
     used_indices (dims st0) ⊆
     used_indices (dims (run_loop env count (count * 3) start_bolt_num
                           turns st0))).
Proof.
  intros d0 st returned.
  assert (H : sampling_inv (list_to_set indices) (table_size d) st).
  { unfold st, createAndExportBolts. simpl.
    apply run_loop_invariant; [apply sampling_inv_step|].
    unfold sampling_inv, loop_start, d0, set_used_indices. simpl.
    repeat split; [constructor | constructor | set_solver]. }
  destruct H as (_ & H1 & H2 & H3).
  repeat split; auto. intros. apply run_loop_used_grows.
Qed.

(** ** Exhaustion in the batch loop *)

Section Exhaustion.

(** With nothing left to draw, a turn is one more error and nothing else. *)
Lemma iteration_exhausted start a st :
  not_loaded (dims st) = false ->
  available_indices (dims st) = [] ->
  iteration start a st =
    mkLoop (success_count st) (error_count st + 1) (retry_count st)
           (export_count st) (attempts st + 1) (dims st)
           (log st ++ [exhaustion_event]).
Proof.
  intros HL HA.
  unfold iteration, init_events, Bolt_init, get_random_unused_bolt.
  rewrite HL, HA. reflexivity.
Qed.

Lemma run_loop_exhausted env count max_attempts start turns st :
  not_loaded (dims st) = false ->
  available_indices (dims st) = [] ->
  let st' := run_loop env count max_attempts start turns st in
  let n := attempts st' - attempts st in
  0 <= n /\
  success_count st' = success_count st /\
  export_count st' = export_count st /\
  retry_count st' = retry_count st /\
  dims st' = dims st /\
  error_count st' = error_count st + n /\
  log st' = (log st ++ repeat exhaustion_event (Z.to_nat n))%list.
Proof.
  revert st. induction turns as [|turns IH]; intros st HL HA; simpl.
  - rewrite Z.sub_diag. simpl. rewrite app_nil_r. repeat split; lia.
  - destruct ((success_count st <? count) && (attempts st <? max_attempts)).
    2: { rewrite Z.sub_diag. simpl. rewrite app_nil_r. repeat split; lia. }
    destruct (at_cancelled (env (Z.to_nat (attempts st)))).
    { rewrite Z.sub_diag. simpl. rewrite app_nil_r. repeat split; lia. }
    rewrite (iteration_exhausted _ _ _ HL HA).
    match goal with |- context [run_loop _ _ _ _ _ ?s] => set (st1 := s) end.
    specialize (IH st1 HL HA). simpl in IH.
    destruct IH as (H0 & H1 & H2 & H3 & H4 & H5 & H6).
    set (st' := run_loop env count max_attempts start turns st1) in *.
    replace (attempts st' - attempts st)
      with (Z.succ (attempts st' - (attempts st + 1))) by lia.
    rewrite Z2Nat.inj_succ by exact H0.
    repeat split; try assumption; try lia.
    rewrite H6. simpl. rewrite <- app_assoc. reflexivity.
Qed.

End Exhaustion.

(** C3, as stated, fails.  With two bolts to go, a table of one row and a
    host that makes no thread, the first attempt draws the only index and
    discards the bolt; the second draw raises the exhaustion error, and the
    loop goes on to draw four more times, up to its attempt cap of six. *)
Lemma C3_draws_continue_after_exhaustion :
  match batch (notify Samples.dialog Samples.world_exhausted Dims.init) with
  | Some st =>
      ~ aborts_on_exhaustion st /\
      draws_after_exhaustion (log st) = 4%nat /\
      attempts st = 6 /\ error_count st = 5
  | None => False
  end.
Proof.
  vm_compute. repeat split. discriminate.
Qed.

(** C3, amended.  Once the table is loaded and no index is unused, the
    constructor raises the exhaustion error to the batch loop on every
    attempt, and the loop counts it as an error and goes on: from such a
    state, every further turn is one more failed draw, one more error and
    one more attempt; no bolt is built, exported or discarded and the
    sampler does not change; with the turns the driver grants, the loop
    ends only at the attempt cap or when the operator cancels. *)
Theorem C3_exhaustion_counted_and_retried
    env count max_attempts start turns (st : loop_state) :
  not_loaded (dims st) = false ->
  available_indices (dims st) = [] ->
  let st' := run_loop env count max_attempts start turns st in
  let n := attempts st' - attempts st in
  (forall a, Bolt_init a (dims st) =
             (inl (ValueError msg_exhausted), dims st)) /\
  0 <= n /\
  success_count st' = success_count st /\
  export_count st' = export_count st /\
  retry_count st' = retry_count st /\
  dims st' = dims st /\
  error_count st' = error_count st + n /\
  log st' = (log st ++ repeat exhaustion_event (Z.to_nat n))%list /\
  (max_attempts - attempts st <= Z.of_nat turns ->
   success_count st < count ->
   max_attempts <= attempts st' \/
   at_cancelled (env (Z.to_nat (attempts st'))) = true).
Proof.
  intros HL HA st' n.
  destruct (run_loop_exhausted env count max_attempts start turns st HL HA)
    as (H0 & H1 & H2 & H3 & H4 & H5 & H6).
  split.
  { intros a. unfold Bolt_init, get_random_unused_bolt.
    rewrite HL, HA. reflexivity. }
  repeat split; try assumption.
  intros Ht Hs.
  destruct (run_loop_exit env count max_attempts start turns st Ht)
    as [H|H]; [|exact H].
  rewrite H1 in H. lia.
Qed.

(** C3 amended, at the one-row table with its row used, two bolts asked
    for and a host on which everything else succeeds: no bolt is built and
    the errors grow with the attempts. *)
Lemma C3_exhaustion_witness :
  not_loaded (dims Samples.exhausted_start) = false /\
  available_indices (dims Samples.exhausted_start) = [] /\
  success_count
    (run_loop (fun _ => Samples.host_ok) 2 6 1 6 Samples.exhausted_start) =
  success_count Samples.exhausted_start.
Proof.
  assert (HL : not_loaded (dims Samples.exhausted_start) = false)
    by (vm_compute; reflexivity).
  assert (HA : available_indices (dims Samples.exhausted_start) = [])
    by (vm_compute; reflexivity).
  split; [exact HL|]. split; [exact HA|].
  exact (proj1 (proj2 (proj2
           (C3_exhaustion_counted_and_retried
              (fun _ => Samples.host_ok) 2 6 1 6 Samples.exhausted_start
              HL HA)))).
Defined.

(** ** The checkpoint *)

Section Checkpoint.

(** Whatever the loop did, a checkpoint that [notify] writes carries the
    end of the planned batch as [last_bolt]. *)
Lemma saved_last_bolt_is_planned_end i w d path data :
  saved (notify i w d) = Some (path, data) ->
  let last :=
    Tracking.last_bolt
      (Tracking.load_tracking_data (files w) (resolved_tracking_file i w)) in
  Tracking.last_bolt data = last + Z.min 250 (1000 - last).
Proof.
  unfold notify, batch_plan.
  destruct (negb (dir_ok w (resolved_export_dir i w))); [discriminate|].
  destruct (String.eqb (csv_path i) EmptyString); [discriminate|].
  destruct (4 <? _); [discriminate|].
  destruct (load_from_csv _ d) as [d1 loaded].
  destruct (negb loaded); [discriminate|].
  destruct (negb (is_loaded d1)); [discriminate|].
  destruct (createAndExportBolts _ _ _ _ _ _ _) as [result st].
  destruct result; [|discriminate].
  simpl. intros H. injection H as _ <-. simpl. lia.
Qed.

End Checkpoint.

(** C2: the code does not do this.  First run ([last_bolt] 0, 250 bolts
    planned): when the operator cancels after the first bolt, and likewise
    when a one-row table lets the loop run into its attempt cap after the
    first bolt, one bolt was built and exported, and the checkpoint that
    [notify] writes has [last_bolt] 250. *)
Theorem C2_checkpoint_overstates_partial_batch :
  let cancelled := notify Samples.dialog Samples.world_cancelled Dims.init in
  let capped := notify Samples.dialog Samples.world_capped Dims.init in
  (success_count <$> batch cancelled) = Some 1 /\
  (export_count <$> batch cancelled) = Some 1 /\
  (attempts <$> batch cancelled) = Some 1 /\
  ((fun s => Tracking.last_bolt s.2) <$> saved cancelled) = Some 250 /\
  (success_count <$> batch capped) = Some 1 /\
  (attempts <$> batch capped) = Some 750 /\
  ((fun s => Tracking.last_bolt s.2) <$> saved capped) = Some 250.
Proof.
  vm_compute. repeat split.
Qed.

(** C6.  [load_tracking_data] gives the default structure, [last_bolt] 0
    and no used index, for a path at which no file exists and for a path
    whose file cannot be opened or parsed; it gives the stored structure
    for a path whose file parses. *)
Theorem C6_load_tracking_data (fs : gmap string Tracking.file_content)
    (path : string) (data : Tracking.tracking_data) :
  Tracking.load_tracking_data (delete path fs) path
    = Tracking.mkTracking 0 [] /\
  Tracking.load_tracking_data (<[ path := Tracking.Unreadable ]> fs) path
    = Tracking.mkTracking 0 [] /\
  Tracking.load_tracking_data (<[ path := Tracking.Parsed data ]> fs) path
    = data /\
  Tracking.load_tracking_data fs path =
    match fs !! path with
    | Some (Tracking.Parsed stored) => stored
    | Some Tracking.Unreadable | None => Tracking.mkTracking 0 []
    end.
Proof.
  unfold Tracking.load_tracking_data.
  rewrite lookup_delete_eq, !lookup_insert_eq.
  repeat split.
Qed.

(** C7: the code does not do this.  The second data row of the sample
    file has a word in its fourth field.  [load_from_csv] has appended the
    label, the body diameter and the pitch of that row before [float]
    raises, and they stay: the load succeeds with three columns of length
    2 and three of length 1. *)
Theorem C7_bad_row_leaves_partial_record :
  let r := load_from_csv Samples.csv_bad_row Dims.init in
  snd r = true /\
  length (thread_sizes (fst r)) = 2%nat /\
  length (body_diameters (fst r)) = 2%nat /\
  length (pitches (fst r)) = 2%nat /\
  length (head_diameters (fst r)) = 1%nat /\
  length (body_lengths (fst r)) = 1%nat /\
  length (head_heights (fst r)) = 1%nat /\
  thread_sizes (fst r) = ["M8"; "M10"].
Proof.
  vm_compute. repeat split.
Qed.

(** ** Batch sizing *)

(** C9.  The plan of a batch from [last_bolt] 760 is 240 bolts, numbered
    761 to 1000, and a run from that checkpoint reports batch 4, bolts 761
    to 1000, with an attempt cap of 720.  A run that has its export
    directory and a CSV path and finds 1000 minus the stored count at or
    below zero ends with the campaign-complete notice: it loads no table,
    starts no loop, writes no checkpoint and leaves the sampler alone; when
    the difference is positive the notice is not shown. *)
Theorem C9_batch_sizing (i : inputs) (w : world) (d : BoltDimensions) :
  dir_ok w (resolved_export_dir i w) = true ->
  csv_path i <> EmptyString ->
  let last_bolt_count :=
    Tracking.last_bolt
      (Tracking.load_tracking_data (files w) (resolved_tracking_file i w)) in
  batch_plan 760 = (Z.min 250 (1000 - 760), 761, 1000) /\
  batch_plan 760 = (240, 761, 1000) /\
  shown (notify Samples.dialog Samples.world_760 Dims.init)
    = BatchCompleted 4 761 1000 None /\
  (attempts <$> batch (notify Samples.dialog Samples.world_760 Dims.init))
    = Some (240 * 3) /\
  (1000 - last_bolt_count <= 0 ->
   notify i w d = mkOutcome false CampaignComplete None d None) /\
  (0 < 1000 - last_bolt_count ->
   shown (notify i w d) <> CampaignComplete).
Proof.
  intros Hdir Hcsv last.
  split; [reflexivity|]. split; [reflexivity|].
  split; [vm_compute; reflexivity|]. split; [vm_compute; reflexivity|].
  apply String.eqb_neq in Hcsv.
  unfold notify. rewrite Hdir, Hcsv. fold last. cbn [negb].
  split; intros Hrem.
  - assert (H4 : 4 <= last / 250) by (apply Z.div_le_lower_bound; lia).
    destruct (4 <? last / 250 + 1) eqn:E; [reflexivity|].
    apply Z.ltb_ge in E. lia.
  - assert (H4 : last / 250 < 4) by (apply Z.div_lt_upper_bound; lia).
    destruct (4 <? last / 250 + 1) eqn:E; [apply Z.ltb_lt in E; lia|].
    destruct (batch_plan last)
      as [[bolts_to_create start_bolt_num] end_bolt_num].
    destruct (load_from_csv _ d) as [d1 loaded].
    destruct (negb loaded); [discriminate|].
    destruct (negb (is_loaded d1)); [discriminate|].
    destruct (createAndExportBolts _ _ _ _ _ _ _) as [result st].
    destruct result; discriminate.
Qed.

(** C9 at a checkpoint that stands at 1000: the run ends with the
    campaign-complete notice. *)
Lemma C9_batch_sizing_witness :
  dir_ok Samples.world_1000
    (resolved_export_dir Samples.dialog Samples.world_1000) = true /\
  csv_path Samples.dialog <> EmptyString /\
  notify Samples.dialog Samples.world_1000 Dims.init =
    mkOutcome false CampaignComplete None Dims.init None.
Proof.
  assert (Hdir : dir_ok Samples.world_1000
            (resolved_export_dir Samples.dialog Samples.world_1000) = true)
    by reflexivity.
  assert (Hcsv : csv_path Samples.dialog <> EmptyString) by discriminate.
  split; [exact Hdir|]. split; [exact Hcsv|].
  apply (C9_batch_sizing Samples.dialog Samples.world_1000 Dims.init Hdir Hcsv).
  vm_compute. discriminate.
Defined.

(** ** The thread-creation flag *)

(** C10.  The value of the Create Threads box changes nothing: two runs of
    [notify] whose dialogs differ in that box only have the same outcome
    (validity flag, notice, checkpoint written, sampler, counters and log
    of the loop); [createAndExportBolts] gives the same result for either
    value of its [create_threads] argument; and [buildBolt] hands the bolt
    to [createThreads] whenever the modelling steps before it succeed,
    which starts with the bolt's own designation. *)
Theorem C10_create_threads_flag_ignored :
  (forall spacing csv_path flag1 flag2 export_dir tracking_file w d,
     notify (mkInputs spacing csv_path flag1 export_dir tracking_file) w d =
     notify (mkInputs spacing csv_path flag2 export_dir tracking_file) w d) /\
  (forall env d count spacing flag1 flag2 export_dir start_bolt_num,
     createAndExportBolts env d count spacing flag1 export_dir start_bolt_num =
     createAndExportBolts env d count spacing flag2 export_dir
       start_bolt_num) /\
  (forall a b,
     snd (buildBolt a b) =
       if at_geometry_ok a then snd (createThreads a b) else []) /\
  (forall a b,
     exists rest, snd (createThreads a b) = threadDesignation b :: rest).
Proof.
  split; [reflexivity|]. split; [reflexivity|]. split.
  - intros a b. unfold buildBolt.
    destruct (at_geometry_ok a); [|reflexivity].
    destruct (createThreads a b) as [[result b'] tried].
    destruct result; reflexivity.
  - intros a b. unfold createThreads.
    destruct (at_thread_ok a (threadType b) (threadDesignation b));
      [eexists; reflexivity|].
    destruct (filter _ std_sizes);
      match goal with
      | |- context [if ?c then _ else _] => destruct c
      end; eexists; reflexivity.
Qed.
